(** * FileManagerAgent.handle_list_files: a shallow embedding

    The development follows [file_manager_agent/agent.py].  The agent opens a
    session on the ADK runtime, sends one fixed prompt, drains the stream of
    response events while collecting the text of their parts, and answers
    with the collected texts joined by newlines, a fixed fallback when there
    are none, or an apology that embeds the error text when something raised.
    The handler that builds the apology first writes the error out with
    [print] and [traceback.print_exc]; these are calls like any other and an
    exception they raise leaves the method.

    Python [str] values are kept as their UTF-8 byte strings: concatenation,
    [join], emptiness and equality of [str] agree with those of the encoded
    bytes. *)

From Stdlib Require Import String Ascii List.
From stdpp Require Import gmap strings list.

(** ** The Python notions the method relies on *)

Module Py.

(** An attribute of an object: [hasattr(o, name)] is [False] on [Missing]. *)
Inductive attr (A : Type) : Type :=
| Missing
| Has (v : A).
Arguments Missing {A}.
Arguments Has {A} v.

(** What a call can raise.  [Exception msg] is an instance of the class
    [Exception] (or of a subclass) with [str(e) = msg]; [BaseException msg]
    is one of the system-exiting classes that sit outside [Exception]
    ([asyncio.CancelledError], [KeyboardInterrupt], [SystemExit]). *)
Inductive raised : Type :=
| Exception (msg : string)
| BaseException (msg : string).

Definition is_Exception (e : raised) : bool :=
  match e with
  | Exception _ => true
  | BaseException _ => false
  end.

(** The result of awaiting a call. *)
Inductive result (A : Type) : Type :=
| Ok (a : A)
| Raise (e : raised).
Arguments Ok {A} a.
Arguments Raise {A} e.

(** [bool(s)] for a [str]. *)
Definition truthy (s : string) : bool :=
  match s with
  | EmptyString => false
  | String _ _ => true
  end.

(** ['\n'] *)
Definition newline : string := String "010" EmptyString.

(** [sep.join(l)] *)
Fixpoint join (sep : string) (l : list string) : string :=
  match l with
  | [] => EmptyString
  | [x] => x
  | x :: rest => x +:+ sep +:+ join sep rest
  end.

(** [needle in hay] for two [str]. *)
Fixpoint contains (needle hay : string) : bool :=
  String.prefix needle hay ||
  match hay with
  | EmptyString => false
  | String _ hay' => contains needle hay'
  end.

End Py.

(** ** Data exchanged with the runtime *)

(** [types.Part]: only its [text] attribute is read. *)
Record Part := { text : Py.attr (option string) }.

(** [types.Content] *)
Record Content := {
  role : option string;
  parts : option (list Part)
}.

(** An event of the stream returned by [Runner.run_async]. *)
Record Event := { content : option Content }.

(** The session object returned by [create_session]; the method reads [id]. *)
Record Session := {
  session_app_name : string;
  session_user_id : string;
  id : string
}.

(** One file of a store, as the tool reports it. *)
Record FileRecord := {
  name : string;
  uploaded_at : string
}.

(** The async generator returned by [run_async], as the consumer sees it: it
    ends, raises, yields an event, or first has the agent's tool [list_files]
    called and goes on according to what the tool gave. *)
Inductive Stream : Type :=
| Stop
| Fail (e : Py.raised)
| Yield (event : Event) (rest : Stream)
| CallTool (k : Py.result (list FileRecord) → Stream).

(** What the method calls into, taken as it answers during one call:
    [InMemorySessionService.create_session], [Runner.run_async], and the two
    output calls of the handler, [print] and [traceback.print_exc], which
    write to the standard streams of the process and can raise (an encoding
    error, a closed pipe). *)
Record Runtime := {
  create_session : string → string → string → Py.result Session;
  run_async : string → string → Content → Stream;
  print : string → Py.result unit;
  print_exc : Py.raised → Py.result unit
}.

(** ** The agent *)

Definition APP_NAME : string := "file_manager".

(** The fields set by [__init__] that the method and the tool wrapper read.
    [store_name_cache] is the caller's dict: the agent keeps a reference to
    it, so its content here is the content the caller sees. *)
Record FileManagerAgent := {
  store_name : string;
  store_name_cache : gmap string string
}.

Definition init (store_name : string) (store_name_cache : gmap string string)
  : FileManagerAgent :=
  {| store_name := store_name; store_name_cache := store_name_cache |}.

(** The calls a call of the method makes to the outside, in order.  [Print]
    and [PrintExc] stand for the calls of [print] and [traceback.print_exc],
    whether or not they succeed. *)
Inductive Effect : Type :=
| CreateSession (app_name user_id session_id : string)
| RunAsync (user_id session_id : string) (new_message : Content)
| ToolCall (store : string)
| Print (line : string)
| PrintExc (e : Py.raised).

(** How a call of the method ends. *)
Inductive Completion : Type :=
| Returns (s : string)
| Propagates (e : Py.raised).

Record Outcome := {
  completion : Completion;
  agent_after : FileManagerAgent;
  trace : list Effect
}.

(** The state of the [async for] loop when it is left. *)
Record Loop := {
  response_texts : list string;
  loop_raised : option Py.raised;
  loop_agent : FileManagerAgent;
  loop_trace : list Effect
}.

Definition user_prompt : string := "請列出所有已上傳的檔案".
Definition no_files_reply : string := "目前沒有找到任何檔案唷！".
Definition error_prefix : string := "查詢檔案時發生了一點問題：".

Definition user_id (self : FileManagerAgent) : string :=
  "user_" +:+ store_name self.

Definition session_id (self : FileManagerAgent) : string :=
  "list_files_" +:+ store_name self.

Definition new_message : Content :=
  {| role := Some "user";
     parts := Some [ {| text := Py.Has (Some user_prompt) |} ] |}.

(** [if hasattr(part, 'text') and part.text: response_texts.append(part.text)] *)
Definition visit_part (response_texts : list string) (part : Part) : list string :=
  match text part with
  | Py.Missing => response_texts
  | Py.Has None => response_texts
  | Py.Has (Some t) =>
      if Py.truthy t then response_texts ++ [t] else response_texts
  end.

(** The body of the [async for]:
    [if event.content and event.content.parts: for part in ...: ...] *)
Definition visit_event (response_texts : list string) (event : Event) : list string :=
  match content event with
  | None => response_texts
  | Some c =>
      match parts c with
      | None => response_texts
      | Some [] => response_texts
      | Some ps => foldl visit_part response_texts ps
      end
  end.

Section Agent.

(** [list_files_tool] of [file_manager_agent/tools.py], which is handed the
    store name and the cache dict: it may write to the dict, and it returns
    the file records or raises. *)
Variable list_files_tool :
  string → gmap string string → gmap string string * Py.result (list FileRecord).

(** The wrapper [list_files] that [__init__] registers as the agent's tool. *)
Definition list_files (self : FileManagerAgent)
  : FileManagerAgent * Py.result (list FileRecord) :=
  let '(cache, r) := list_files_tool (store_name self) (store_name_cache self) in
  ({| store_name := store_name self; store_name_cache := cache |}, r).

(** [async for event in stream: ...], from the accumulator [response_texts]. *)
Fixpoint async_for (self : FileManagerAgent) (stream : Stream)
    (response_texts : list string) (tr : list Effect) : Loop :=
  match stream with
  | Stop =>
      {| response_texts := response_texts; loop_raised := None;
         loop_agent := self; loop_trace := tr |}
  | Fail e =>
      {| response_texts := response_texts; loop_raised := Some e;
         loop_agent := self; loop_trace := tr |}
  | Yield event rest =>
      async_for self rest (visit_event response_texts event) tr
  | CallTool k =>
      let '(self', r) := list_files self in
      async_for self' (k r) response_texts (tr ++ [ToolCall (store_name self)])
  end.

(** [except Exception as e: print(...); traceback.print_exc(); return ...].
    Anything outside [Exception] is not matched and goes on to the caller.
    Inside the handler nothing is guarded: when [print] raises, the traceback
    is not printed and that exception leaves the method, and likewise when
    [traceback.print_exc] raises. *)
Definition except_Exception (rt : Runtime) (e : Py.raised)
    (self : FileManagerAgent) (tr : list Effect) : Outcome :=
  match e with
  | Py.Exception msg =>
      let line := "Error in FileManagerAgent: " +:+ msg in
      match print rt line with
      | Py.Raise e' =>
          {| completion := Propagates e'; agent_after := self;
             trace := tr ++ [Print line] |}
      | Py.Ok _ =>
          match print_exc rt e with
          | Py.Raise e' =>
              {| completion := Propagates e'; agent_after := self;
                 trace := tr ++ [Print line; PrintExc e] |}
          | Py.Ok _ =>
              {| completion := Returns (error_prefix +:+ msg);
                 agent_after := self;
                 trace := tr ++ [Print line; PrintExc e] |}
          end
      end
  | Py.BaseException _ =>
      {| completion := Propagates e; agent_after := self; trace := tr |}
  end.

Definition handle_list_files (rt : Runtime) (self : FileManagerAgent) : Outcome :=
  let tr := [CreateSession APP_NAME (user_id self) (session_id self)] in
  match create_session rt APP_NAME (user_id self) (session_id self) with
  | Py.Raise e => except_Exception rt e self tr
  | Py.Ok session =>
      let stream := run_async rt (user_id self) (id session) new_message in
      let l := async_for self stream []
                 (tr ++ [RunAsync (user_id self) (id session) new_message]) in
      match loop_raised l with
      | Some e => except_Exception rt e (loop_agent l) (loop_trace l)
      | None =>
          {| completion :=
               Returns match response_texts l with
                       | [] => no_files_reply
                       | _ => Py.join Py.newline (response_texts l)
                       end;
             agent_after := loop_agent l;
             trace := loop_trace l |}
      end
  end.

(** *** What the runtime's stream does, seen from outside the method *)

(** The events a stream yields until it ends or raises. *)
Fixpoint events_of (self : FileManagerAgent) (stream : Stream) : list Event :=
  match stream with
  | Stop => []
  | Fail _ => []
  | Yield event rest => event :: events_of self rest
  | CallTool k => let '(self', r) := list_files self in events_of self' (k r)
  end.

(** What it raises, if it does. *)
Fixpoint raised_by (self : FileManagerAgent) (stream : Stream) : option Py.raised :=
  match stream with
  | Stop => None
  | Fail e => Some e
  | Yield _ rest => raised_by self rest
  | CallTool k => let '(self', r) := list_files self in raised_by self' (k r)
  end.

End Agent.

(** ** Notions used to state the properties *)

(** The call to [create_session] the method makes, and the stream it then
    consumes. *)
Definition session_request (rt : Runtime) (self : FileManagerAgent)
  : Py.result Session :=
  create_session rt APP_NAME (user_id self) (session_id self).

Definition response_stream (rt : Runtime) (self : FileManagerAgent)
    (session : Session) : Stream :=
  run_async rt (user_id self) (id session) new_message.

(** The text a part contributes: it has a [text] attribute and that text is
    not empty. *)
Definition fragment_of (p : Part) : option string :=
  match text p with
  | Py.Has (Some t) => if decide (t = EmptyString) then None else Some t
  | _ => None
  end.

(** The parts of an event that carries content with one or more parts. *)
Definition carried_parts (ev : Event) : list Part :=
  match content ev with
  | Some c => default [] (parts c)
  | None => []
  end.

(** The text fragments of an event, in the order of its parts. *)
Definition text_fragments (ev : Event) : list string :=
  omap fragment_of (carried_parts ev).

(** The accumulator once the given events have been visited in order. *)
Definition collected (events : list Event) : list string :=
  foldl visit_event [] events.

(** An event whose parts carry the given texts. *)
Definition event_with_texts (ts : list string) : Event :=
  {| content :=
       Some {| role := Some "model";
               parts := Some (map (λ t, {| text := Py.Has (Some t) |}) ts) |} |}.

(** The calls to the runtime among the effects of a call. *)
Definition is_runtime_call (e : Effect) : bool :=
  match e with
  | CreateSession _ _ _ | RunAsync _ _ _ => true
  | _ => false
  end.

Definition runtime_calls (tr : list Effect) : list Effect :=
  List.filter is_runtime_call tr.

(** ** Concrete runs *)

Module Runs.

Definition report : FileRecord :=
  {| name := "report.pdf"; uploaded_at := "2024-01-01" |}.

Definition docs_agent : FileManagerAgent :=
  init "docs" {[ "docs" := "store_123" ]}.

Definition notes_agent : FileManagerAgent := init "notes" ∅.

(** Another agent for the store ["docs"], built over an empty cache. *)
Definition docs_agent_empty_cache : FileManagerAgent := init "docs" ∅.

Definition docs_session : Session :=
  {| session_app_name := "file_manager"; session_user_id := "user_docs";
     id := "list_files_docs" |}.

Definition notes_session : Session :=
  {| session_app_name := "file_manager"; session_user_id := "user_notes";
     id := "list_files_notes" |}.

(** A tool that reads the dict and reports one file for a known store. *)
Definition lookup_tool (store : string) (cache : gmap string string)
  : gmap string string * Py.result (list FileRecord) :=
  match cache !! store with
  | Some _ => (cache, Py.Ok [report])
  | None => (cache, Py.Ok [])
  end.

(** A tool that records the store it resolved in the dict. *)
Definition caching_tool (store : string) (cache : gmap string string)
  : gmap string string * Py.result (list FileRecord) :=
  (<[store := "stores/" +:+ store]> cache, Py.Ok [report]).

(** Output calls that succeed. *)
Definition written {A : Type} (_ : A) : Py.result unit := Py.Ok tt.

Definition new_session (app uid sid : string) : Py.result Session :=
  Py.Ok {| session_app_name := app; session_user_id := uid; id := sid |}.

Definition tool_part : Part := {| text := Py.Has None |}.

(** The runtime yields ["a"], then ["b", "c"]. *)
Definition abc_runtime : Runtime :=
  {| create_session := new_session;
     run_async := λ _ _ _,
       Yield (event_with_texts ["a"])
         (Yield (event_with_texts ["b"; "c"]) Stop);
     print := written;
     print_exc := written |}.

(** The same events, produced after a tool call and for any session. *)
Definition abc_after_tool_runtime : Runtime :=
  {| create_session := new_session;
     run_async := λ _ _ _,
       CallTool (λ _,
         Yield (event_with_texts ["a"])
           (Yield (event_with_texts ["b"; "c"]) Stop));
     print := written;
     print_exc := written |}.

(** The model calls the tool and is handed the records, but the events it
    yields (the function call, the function response, an empty final text)
    carry no text. *)
Definition silent_runtime : Runtime :=
  {| create_session := new_session;
     run_async := λ _ _ _,
       Yield {| content := Some {| role := Some "model";
                                   parts := Some [tool_part] |} |}
         (CallTool (λ r,
            match r with
            | Py.Ok (_ :: _) =>
                Yield {| content := Some {| role := Some "user";
                                            parts := Some [tool_part] |} |}
                  (Yield (event_with_texts [""]) Stop)
            | _ => Yield (event_with_texts ["nothing here"]) Stop
            end));
     print := written;
     print_exc := written |}.


(** Session creation raises. *)
Definition refusing_runtime : Runtime :=
  {| create_session := λ _ _ _, Py.Raise (Py.Exception "session exists");
     run_async := λ _ _ _, Stop;
     print := written;
     print_exc := written |}.

(** The awaiting task is cancelled while the stream is drained. *)
Definition cancelled_runtime : Runtime :=
  {| create_session := new_session;
     run_async := λ _ _ _,
       Yield (event_with_texts ["a"]) (Fail (Py.BaseException ""));
     print := written;
     print_exc := written |}.

End Runs.

(** ** A whole call, seen from outside *)

Section Run.

Variable tool :
  string → gmap string string → gmap string string * Py.result (list FileRecord).

(** How many times the stream has the tool called before it ends or raises. *)
Fixpoint tool_calls (self : FileManagerAgent) (stream : Stream) : nat :=
  match stream with
  | Stop => 0
  | Fail _ => 0
  | Yield _ rest => tool_calls self rest
  | CallTool k => let '(self', r) := list_files tool self in S (tool_calls self' (k r))
  end.

(** What is raised during a call, by session creation or by the stream. *)
Definition run_raised (rt : Runtime) (self : FileManagerAgent) : option Py.raised :=
  match session_request rt self with
  | Py.Raise e => Some e
  | Py.Ok session => raised_by tool self (response_stream rt self session)
  end.

(** The calls of the tool during a call of the method. *)
Definition calls_made (rt : Runtime) (self : FileManagerAgent) : nat :=
  match session_request rt self with
  | Py.Raise _ => 0
  | Py.Ok session => tool_calls self (response_stream rt self session)
  end.

(** The calls to the runtime and to the tool, in order. *)
Definition calls_of (rt : Runtime) (self : FileManagerAgent) : list Effect :=
  CreateSession APP_NAME (user_id self) (session_id self)
  :: match session_request rt self with
     | Py.Raise _ => []
     | Py.Ok session =>
         RunAsync (user_id self) (id session) new_message
         :: replicate (tool_calls self (response_stream rt self session))
              (ToolCall (store_name self))
     end.

End Run.

(** What one call of the tool leaves in the dict. *)
Definition tool_write
    (tool : string → gmap string string →
            gmap string string * Py.result (list FileRecord))
    (store : string) (cache : gmap string string) : gmap string string :=
  (tool store cache).1.

(** The output calls the handler makes for what was raised: the error line,
    and the traceback unless printing the line raised. *)
Definition handler_output (rt : Runtime) (e : option Py.raised) : list Effect :=
  match e with
  | Some (Py.Exception msg) =>
      Print ("Error in FileManagerAgent: " +:+ msg)
      :: match print rt ("Error in FileManagerAgent: " +:+ msg) with
         | Py.Ok _ => [PrintExc (Py.Exception msg)]
         | Py.Raise _ => []
         end
  | _ => []
  end.

(** Both output calls of the handler succeed for the exception text [msg]. *)
Definition output_succeeds (rt : Runtime) (msg : string) : Prop :=
  print rt ("Error in FileManagerAgent: " +:+ msg) = Py.Ok tt
  ∧ print_exc rt (Py.Exception msg) = Py.Ok tt.

(** The texts joined with newline separators: the first text, then for each
    later text a newline and that text. *)
Definition newline_separated (texts : list string) : string :=
  match texts with
  | [] => EmptyString
  | t :: rest => foldl (λ s u, s +:+ String "010" EmptyString +:+ u) t rest
  end.

(** All text fragments of a sequence of events, in order. *)
Definition all_fragments (events : list Event) : list string :=
  concat (map text_fragments events).

Module Scenarios.

(** The runtime yields one event whose only part carries the text [t]. *)
Definition echo_runtime (t : string) : Runtime :=
  {| create_session := Runs.new_session;
     run_async := λ _ _ _, Yield (event_with_texts [t]) Stop;
     print := Runs.written;
     print_exc := Runs.written |}.

(** The fragments "a", "b", "c" grouped as ["a", "b"] and ["c"], with an event
    that carries no text in between and a tool call before the last one. *)
Definition grouped_runtime : Runtime :=
  {| create_session := Runs.new_session;
     run_async := λ _ _ _,
       Yield (event_with_texts ["a"; "b"])
         (Yield {| content := Some {| role := Some "model";
                                     parts := Some [Runs.tool_part] |} |}
            (CallTool (λ _, Yield (event_with_texts [""; "c"]) Stop)));
     print := Runs.written;
     print_exc := Runs.written |}.

(** The stream has the tool called twice, then raises. *)
Definition two_calls_runtime : Runtime :=
  {| create_session := Runs.new_session;
     run_async := λ _ _ _,
       CallTool (λ _, Yield (event_with_texts ["a"])
                        (CallTool (λ _, Fail (Py.Exception "quota"))));
     print := Runs.written;
     print_exc := Runs.written |}.

(** A tool that counts its calls in the dict under the store's name. *)
Definition counting_tool (store : string) (cache : gmap string string)
  : gmap string string * Py.result (list FileRecord) :=
  (<[store := default "" (cache !! store) +:+ "x"]> cache, Py.Ok []).

(** Session creation raises an [Exception]; standard output cannot encode
    the error line, so [print] raises. *)
Definition unencodable_stdout_runtime : Runtime :=
  {| create_session := λ _ _ _, Py.Raise (Py.Exception "找不到 session");
     run_async := λ _ _ _, Stop;
     print := λ _, Py.Raise (Py.Exception "'ascii' codec can't encode characters");
     print_exc := Runs.written |}.

(** The stream yields a text and raises an [Exception]; the error line is
    printed, but standard error is closed and [traceback.print_exc] raises. *)
Definition closed_stderr_runtime : Runtime :=
  {| create_session := Runs.new_session;
     run_async := λ _ _ _,
       Yield (event_with_texts ["a"]) (Fail (Py.Exception "quota"));
     print := Runs.written;
     print_exc := λ _, Py.Raise (Py.Exception "I/O operation on closed file") |}.

(** Session creation is interrupted from the keyboard. *)
Definition interrupted_runtime : Runtime :=
  {| create_session := λ _ _ _, Py.Raise (Py.BaseException "KeyboardInterrupt");
     run_async := λ _ _ _, Stop;
     print := Runs.written;
     print_exc := Runs.written |}.

(** A tool that resolves the store and fills the dict only on a miss. *)
Definition fill_on_miss_tool (store : string) (cache : gmap string string)
  : gmap string string * Py.result (list FileRecord) :=
  match cache !! store with
  | Some _ => (cache, Py.Ok [Runs.report])
  | None => (<[store := "stores/" +:+ store]> cache, Py.Ok [Runs.report])
  end.

End Scenarios.

(** * Properties *)

(** ** Strings *)

Lemma truthy_nonempty (t : string) : Py.truthy t = true ↔ t ≠ EmptyString.
Proof. destruct t; simpl; split; congruence. Qed.

Lemma prefix_append (s t : string) : String.prefix s (s +:+ t) = true.
Proof.
  induction s as [|a s IH]; simpl.
  - by destruct t.
  - destruct (ascii_dec a a); [exact IH | congruence].
Qed.

Lemma contains_unfold (s hay : string) :
  Py.contains s hay =
  String.prefix s hay ||
  match hay with
  | EmptyString => false
  | String _ hay' => Py.contains s hay'
  end.
Proof. by destruct hay. Qed.

Lemma contains_prefix (s t : string) : Py.contains s (s +:+ t) = true.
Proof. by rewrite contains_unfold, prefix_append. Qed.

Lemma contains_cons (a : ascii) (s t : string) :
  Py.contains s t = true → Py.contains s (String a t) = true.
Proof. intros H. rewrite contains_unfold, H. apply orb_true_r. Qed.

Lemma contains_append (s t u : string) :
  Py.contains s u = true → Py.contains s (t +:+ u) = true.
Proof.
  intros H. induction t as [|a t IH]; [done|].
  exact (contains_cons a s (t +:+ u) IH).
Qed.

(** The bytes of a string, to tell apart strings by a byte they hold. *)
Lemma bytes_append (s t : string) :
  list_ascii_of_string (s +:+ t) = list_ascii_of_string s ++ list_ascii_of_string t.
Proof. induction s as [|a s IH]; simpl; [done | by rewrite IH]. Qed.

Lemma join_two_has_newline (x y : string) (rest : list string) :
  "010"%char ∈ list_ascii_of_string (Py.join Py.newline (x :: y :: rest)).
Proof.
  change (Py.join Py.newline (x :: y :: rest))
    with (x +:+ Py.newline +:+ Py.join Py.newline (y :: rest)).
  rewrite !bytes_append. apply elem_of_app. right. apply elem_of_app. left.
  simpl. apply list_elem_of_here.
Qed.

Lemma no_files_reply_one_line : "010"%char ∉ list_ascii_of_string no_files_reply.
Proof. vm_compute. intros H. repeat (inversion H as [|? ? ? H']; clear H; rename H' into H). Qed.

(** ** The accumulator *)

Lemma fragment_of_spec (p : Part) (t : string) :
  fragment_of p = Some t ↔ text p = Py.Has (Some t) ∧ t ≠ EmptyString.
Proof.
  unfold fragment_of. destruct (text p) as [|[u|]].
  - split; [done | intros [? _]; done].
  - destruct (decide (u = EmptyString)) as [->|Hu].
    + split; [done | intros [[= ->] ?]; done].
    + split; [intros [= ->]; done | intros [[= ->] _]; done].
  - split; [done | intros [? _]; done].
Qed.

Lemma visit_part_fragment (acc : list string) (p : Part) :
  visit_part acc p = acc ++ option_list (fragment_of p).
Proof.
  unfold visit_part, fragment_of. destruct (text p) as [|[t|]]; simpl.
  - by rewrite app_nil_r.
  - destruct t; simpl; [by rewrite app_nil_r | done].
  - by rewrite app_nil_r.
Qed.

Lemma foldl_visit_part (ps : list Part) (acc : list string) :
  foldl visit_part acc ps = acc ++ omap fragment_of ps.
Proof.
  revert acc. induction ps as [|p ps IH]; intros acc; simpl.
  - by rewrite app_nil_r.
  - rewrite IH, visit_part_fragment, <- app_assoc.
    by destruct (fragment_of p).
Qed.

Lemma visit_event_fragments (acc : list string) (ev : Event) :
  visit_event acc ev = acc ++ text_fragments ev.
Proof.
  unfold visit_event, text_fragments, carried_parts.
  destruct (content ev) as [c|]; simpl; [|by rewrite app_nil_r].
  destruct (parts c) as [[|p ps]|]; simpl; try by rewrite app_nil_r.
  apply (foldl_visit_part (p :: ps)).
Qed.

Lemma foldl_visit_event (evs : list Event) (acc : list string) :
  foldl visit_event acc evs = acc ++ concat (map text_fragments evs).
Proof.
  revert acc. induction evs as [|ev evs IH]; intros acc; simpl.
  - by rewrite app_nil_r.
  - by rewrite IH, visit_event_fragments, <- app_assoc.
Qed.

Lemma collected_fragments (evs : list Event) :
  collected evs = concat (map text_fragments evs).
Proof. apply (foldl_visit_event evs []). Qed.

Lemma fragments_of_text_parts (ts : list string) :
  omap fragment_of (map (λ t, {| text := Py.Has (Some t) |}) ts)
  = filter (λ t, t ≠ EmptyString) ts.
Proof.
  induction ts as [|t ts IH]; [done|].
  rewrite filter_cons. cbn [map omap list_omap]. rewrite IH.
  unfold fragment_of; cbn [text].
  by destruct (decide (t = EmptyString)), (decide (t ≠ EmptyString)).
Qed.

Lemma text_fragments_event_with_texts (ts : list string) :
  text_fragments (event_with_texts ts) = filter (λ t, t ≠ EmptyString) ts.
Proof. apply fragments_of_text_parts. Qed.

(** ** The loop *)

Section Loop.

Variable tool :
  string → gmap string string → gmap string string * Py.result (list FileRecord).

Lemma list_files_store_name (self : FileManagerAgent) :
  store_name (list_files tool self).1 = store_name self.
Proof. unfold list_files. by destruct (tool _ _). Qed.

Lemma async_for_texts (stream : Stream) (self : FileManagerAgent)
    (acc : list string) (tr : list Effect) :
  response_texts (async_for tool self stream acc tr)
  = foldl visit_event acc (events_of tool self stream).
Proof.
  revert self acc tr.
  induction stream as [|e|ev rest IH|k IH]; intros self acc tr; simpl; try done.
  destruct (list_files tool self) as [self' r]. apply IH.
Qed.

Lemma async_for_raised (stream : Stream) (self : FileManagerAgent)
    (acc : list string) (tr : list Effect) :
  loop_raised (async_for tool self stream acc tr) = raised_by tool self stream.
Proof.
  revert self acc tr.
  induction stream as [|e|ev rest IH|k IH]; intros self acc tr; simpl; try done.
  destruct (list_files tool self) as [self' r]. apply IH.
Qed.

(** The loop only adds tool calls to the effects. *)
Lemma async_for_trace (stream : Stream) (self : FileManagerAgent)
    (acc : list string) (tr : list Effect) :
  ∃ calls, loop_trace (async_for tool self stream acc tr) = tr ++ calls
           ∧ runtime_calls calls = [].
Proof.
  revert self acc tr.
  induction stream as [|e|ev rest IH|k IH]; intros self acc tr; simpl.
  - exists []. by rewrite app_nil_r.
  - exists []. by rewrite app_nil_r.
  - apply IH.
  - destruct (list_files tool self) as [self' r].
    destruct (IH r self' acc (tr ++ [ToolCall (store_name self)]))
      as (calls & -> & Hcalls).
    exists (ToolCall (store_name self) :: calls). split.
    + by rewrite <- app_assoc.
    + exact Hcalls.
Qed.

End Loop.

(** ** The three ways a call goes *)

Section Paths.

Variable tool :
  string → gmap string string → gmap string string * Py.result (list FileRecord).
Variables (rt : Runtime) (self : FileManagerAgent).

Lemma session_raises (e : Py.raised) :
  session_request rt self = Py.Raise e →
  handle_list_files tool rt self
  = except_Exception rt e self
      [CreateSession APP_NAME (user_id self) (session_id self)].
Proof.
  unfold session_request, handle_list_files. by intros ->.
Qed.

Lemma stream_raises (session : Session) (e : Py.raised) :
  session_request rt self = Py.Ok session →
  raised_by tool self (response_stream rt self session) = Some e →
  ∃ self' calls,
    handle_list_files tool rt self
    = except_Exception rt e self'
        ([CreateSession APP_NAME (user_id self) (session_id self);
          RunAsync (user_id self) (id session) new_message] ++ calls)
    ∧ runtime_calls calls = [].
Proof.
  unfold session_request, response_stream, handle_list_files.
  intros -> Hraised. rewrite async_for_raised, Hraised.
  edestruct async_for_trace as (calls & -> & Hcalls).
  eexists _, calls. split; [reflexivity | done].
Qed.

Lemma stream_completes (session : Session) :
  session_request rt self = Py.Ok session →
  raised_by tool self (response_stream rt self session) = None →
  ∃ self' calls,
    handle_list_files tool rt self
    = {| completion :=
           Returns match collected (events_of tool self (response_stream rt self session)) with
                   | [] => no_files_reply
                   | acc => Py.join Py.newline acc
                   end;
         agent_after := self';
         trace := [CreateSession APP_NAME (user_id self) (session_id self);
                   RunAsync (user_id self) (id session) new_message] ++ calls |}
    ∧ runtime_calls calls = [].
Proof.
  unfold session_request, response_stream, handle_list_files.
  intros -> Hraised. rewrite async_for_raised, Hraised, async_for_texts.
  edestruct async_for_trace as (calls & -> & Hcalls).
  eexists _, calls. split; [|done].
  unfold collected. by destruct (foldl _ _ _).
Qed.

End Paths.

Lemma contains_self (s : string) : Py.contains s s = true.
Proof.
  rewrite contains_unfold.
  replace (String.prefix s s) with true; [done|].
  induction s as [|a s IH]; simpl; [done|].
  destruct (ascii_dec a a); [exact IH | congruence].
Qed.

Lemma apology_shape (msg : string) :
  error_prefix +:+ msg = "查詢檔案時發生了一點問題" +:+ "：" +:+ msg
  ∧ Py.contains "查詢檔案時發生了一點問題" (error_prefix +:+ msg) = true
  ∧ Py.contains msg (error_prefix +:+ msg) = true.
Proof.
  split; [reflexivity|]. split.
  - apply (contains_prefix "查詢檔案時發生了一點問題" ("：" +:+ msg)).
  - apply contains_append, contains_self.
Qed.

Lemma error_reply_not_fallback (msg : string) : error_prefix +:+ msg ≠ no_files_reply.
Proof. discriminate. Qed.

Lemma join_is_fallback (acc : list string) :
  acc ≠ [] →
  Py.join Py.newline acc = no_files_reply ↔ acc = [no_files_reply].
Proof.
  intros Hacc. destruct acc as [|x [|y rest]]; [done| |].
  - simpl. split; congruence.
  - split; [|done]. intros Heq. exfalso.
    apply no_files_reply_one_line. rewrite <- Heq. apply join_two_has_newline.
Qed.


Lemma append_assoc (a b c : string) : (a +:+ b) +:+ c = a +:+ (b +:+ c).
Proof.
  induction a as [|x a IH]; [done|].
  change (String x ((a +:+ b) +:+ c) = String x (a +:+ (b +:+ c))).
  by rewrite IH.
Qed.

Lemma join_cons_append (sep a b : string) (rest : list string) :
  Py.join sep ((a +:+ b) :: rest) = a +:+ Py.join sep (b :: rest).
Proof.
  destruct rest as [|y rest]; [done|].
  change (Py.join sep ((a +:+ b) :: y :: rest))
    with ((a +:+ b) +:+ sep +:+ Py.join sep (y :: rest)).
  change (Py.join sep (b :: y :: rest)) with (b +:+ sep +:+ Py.join sep (y :: rest)).
  apply append_assoc.
Qed.

(** [join] puts a newline before every text but the first. *)
Lemma join_newline_separated (texts : list string) :
  Py.join Py.newline texts = newline_separated texts.
Proof.
  destruct texts as [|t rest]; [done|]. cbn [newline_separated].
  revert t. induction rest as [|u rest IH]; intros t; [done|].
  cbn [foldl]. rewrite <- IH, !join_cons_append. reflexivity.
Qed.

Lemma contains_join (sep t : string) (acc : list string) :
  t ∈ acc → Py.contains t (Py.join sep acc) = true.
Proof.
  induction acc as [|x acc IH]; [by intros ?%elem_of_nil|].
  intros Ht. destruct acc as [|y acc].
  - apply list_elem_of_singleton in Ht as ->. apply contains_self.
  - change (Py.join sep (x :: y :: acc)) with (x +:+ sep +:+ Py.join sep (y :: acc)).
    apply elem_of_cons in Ht as [-> | Ht].
    + apply contains_prefix.
    + by apply contains_append, contains_append, IH.
Qed.

Lemma join_nonempty (sep : string) (acc : list string) :
  acc ≠ [] → Forall (λ t, t ≠ EmptyString) acc → Py.join sep acc ≠ EmptyString.
Proof.
  intros Hne Hall. destruct acc as [|x [|y rest]]; [done| |].
  - by apply Forall_cons in Hall as [? _].
  - apply Forall_cons in Hall as [Hx _].
    change (Py.join sep (x :: y :: rest)) with (x +:+ sep +:+ Py.join sep (y :: rest)).
    by destruct x.
Qed.

Lemma collected_nonempty (evs : list Event) :
  Forall (λ t, t ≠ EmptyString) (collected evs).
Proof.
  rewrite collected_fragments. apply Forall_concat, Forall_forall.
  intros ts (ev & -> & _)%list_elem_of_fmap.
  unfold text_fragments. apply Forall_forall. intros t Ht.
  apply list_elem_of_omap in Ht as (p & _ & Hp). by apply fragment_of_spec in Hp as [_ ?].
Qed.

(** ** The handler *)

Section Handler.

Variables (rt : Runtime) (a : FileManagerAgent) (tr : list Effect).

Lemma except_Exception_agent (e : Py.raised) :
  agent_after (except_Exception rt e a tr) = a.
Proof.
  destruct e as [msg|msg]; [|done]. unfold except_Exception.
  destruct (print rt _); [|done]. by destruct (print_exc rt _).
Qed.

Lemma except_Exception_trace (e : Py.raised) :
  trace (except_Exception rt e a tr) = tr ++ handler_output rt (Some e).
Proof.
  destruct e as [msg|msg]; [|by rewrite app_nil_r].
  unfold except_Exception, handler_output.
  destruct (print rt _); [|done]. by destruct (print_exc rt _).
Qed.

Lemma except_Exception_returns (e : Py.raised) (s : string) :
  completion (except_Exception rt e a tr) = Returns s
  ↔ ∃ msg, e = Py.Exception msg ∧ output_succeeds rt msg ∧ s = error_prefix +:+ msg.
Proof.
  unfold output_succeeds. destruct e as [msg|msg]; unfold except_Exception.
  - destruct (print rt _) as [[]|e1] eqn:Hprint.
    + destruct (print_exc rt _) as [[]|e2] eqn:Hexc; cbn [completion].
      * split; [intros [= <-]; by exists msg|].
        by intros (? & [= <-] & _ & ->).
      * split; [done|]. intros (? & [= <-] & [_ ?] & _). congruence.
    + cbn [completion]. split; [done|]. intros (? & [= <-] & [? _] & _). congruence.
  - cbn [completion]. split; [done | by intros (? & ? & _)].
Qed.

Lemma except_Exception_propagates (e e' : Py.raised) :
  completion (except_Exception rt e a tr) = Propagates e'
  ↔ (e = e' ∧ Py.is_Exception e = false)
    ∨ ∃ msg, e = Py.Exception msg
        ∧ (print rt ("Error in FileManagerAgent: " +:+ msg) = Py.Raise e'
           ∨ (print rt ("Error in FileManagerAgent: " +:+ msg) = Py.Ok tt
              ∧ print_exc rt (Py.Exception msg) = Py.Raise e')).
Proof.
  destruct e as [msg|msg]; unfold except_Exception.
  - destruct (print rt _) as [[]|e1] eqn:Hprint.
    + destruct (print_exc rt _) as [[]|e2] eqn:Hexc; cbn [completion].
      * split; [done|].
        intros [[_ ?] | (? & [= <-] & [? | [_ ?]])]; [done | congruence | congruence].
      * split.
        -- intros [= <-]. right. exists msg. split; [done|]. by right.
        -- intros [[_ ?] | (? & [= <-] & [? | [_ ?]])]; [done | congruence | congruence].
    + cbn [completion]. split.
      * intros [= <-]. right. exists msg. split; [done|]. by left.
      * intros [[_ ?] | (? & [= <-] & [? | [? _]])]; [done | congruence | congruence].
  - cbn [completion]. split.
    + intros [= <-]. by left.
    + intros [[<- _] | (? & ? & _)]; done.
Qed.

End Handler.

(** ** The loop, its tool calls and the dict *)

Section Effects.

Variable tool :
  string → gmap string string → gmap string string * Py.result (list FileRecord).

Lemma list_files_cache (self : FileManagerAgent) :
  store_name_cache (list_files tool self).1
  = tool_write tool (store_name self) (store_name_cache self).
Proof. unfold list_files, tool_write. by destruct (tool _ _). Qed.

Lemma async_for_calls (stream : Stream) (self : FileManagerAgent)
    (acc : list string) (tr : list Effect) :
  loop_trace (async_for tool self stream acc tr)
  = tr ++ replicate (tool_calls tool self stream) (ToolCall (store_name self)).
Proof.
  revert self acc tr.
  induction stream as [|e|ev rest IH|k IH]; intros self acc tr; simpl.
  - by rewrite app_nil_r.
  - by rewrite app_nil_r.
  - apply IH.
  - pose proof (list_files_store_name tool self) as Hname.
    destruct (list_files tool self) as [self' r]; simpl in Hname.
    by rewrite IH, Hname, <- app_assoc.
Qed.

Lemma async_for_final_agent (stream : Stream) (self : FileManagerAgent)
    (acc : list string) (tr : list Effect) :
  loop_agent (async_for tool self stream acc tr)
  = init (store_name self)
      (Nat.iter (tool_calls tool self stream) (tool_write tool (store_name self))
         (store_name_cache self)).
Proof.
  revert self acc tr.
  induction stream as [|e|ev rest IH|k IH]; intros self acc tr; simpl.
  - by destruct self.
  - by destruct self.
  - apply IH.
  - pose proof (list_files_store_name tool self) as Hname.
    pose proof (list_files_cache self) as Hcache.
    destruct (list_files tool self) as [self' r]; simpl in Hname, Hcache.
    rewrite IH, Hname, Hcache. f_equal.
    symmetry. apply Nat.iter_succ_r.
Qed.

Lemma handle_list_files_unfold (rt : Runtime) (self : FileManagerAgent) :
  handle_list_files tool rt self
  = match session_request rt self with
    | Py.Raise e =>
        except_Exception rt e self
          [CreateSession APP_NAME (user_id self) (session_id self)]
    | Py.Ok session =>
        let l := async_for tool self (response_stream rt self session) []
                   [CreateSession APP_NAME (user_id self) (session_id self);
                    RunAsync (user_id self) (id session) new_message] in
        match loop_raised l with
        | Some e => except_Exception rt e (loop_agent l) (loop_trace l)
        | None =>
            {| completion :=
                 Returns match response_texts l with
                         | [] => no_files_reply
                         | _ => Py.join Py.newline (response_texts l)
                         end;
               agent_after := loop_agent l;
               trace := loop_trace l |}
        end
    end.
Proof. reflexivity. Qed.

(** How a call ends, by what was raised during it. *)
Lemma completion_by_raised (rt : Runtime) (self : FileManagerAgent) :
  match run_raised tool rt self with
  | Some e =>
      ∃ a tr, completion (handle_list_files tool rt self)
              = completion (except_Exception rt e a tr)
  | None =>
      ∃ session,
        session_request rt self = Py.Ok session
        ∧ completion (handle_list_files tool rt self)
          = Returns match collected (events_of tool self
                                       (response_stream rt self session)) with
                    | [] => no_files_reply
                    | acc => Py.join Py.newline acc
                    end
  end.
Proof.
  unfold run_raised.
  destruct (session_request rt self) as [session|e] eqn:Hreq.
  - destruct (raised_by tool self _) as [e|] eqn:Hr.
    + destruct (stream_raises tool rt self session e Hreq Hr) as (a & calls & -> & _).
      by eexists _, _.
    + destruct (stream_completes tool rt self session Hreq Hr) as (a & calls & -> & _).
      by exists session.
  - rewrite (session_raises tool rt self e Hreq). by eexists _, _.
Qed.

Lemma trace_starts_with_session_request (rt : Runtime) (self : FileManagerAgent) :
  ∃ rest, trace (handle_list_files tool rt self)
          = CreateSession APP_NAME (user_id self) (session_id self) :: rest.
Proof.
  destruct (session_request rt self) as [session|e] eqn:Hreq.
  - destruct (raised_by tool self (response_stream rt self session)) as [e|] eqn:Hr.
    + destruct (stream_raises tool rt self session e Hreq Hr) as (a & calls & -> & _).
      rewrite except_Exception_trace. cbn [app]. by eexists.
    + destruct (stream_completes tool rt self session Hreq Hr) as (a & calls & -> & _).
      cbn [trace app]. by eexists.
  - rewrite (session_raises tool rt self e Hreq).
    rewrite except_Exception_trace. cbn [app]. by eexists.
Qed.

End Effects.

Lemma trace_of_call
    (tool : string → gmap string string →
            gmap string string * Py.result (list FileRecord))
    (rt : Runtime) (self : FileManagerAgent) :
  trace (handle_list_files tool rt self)
  = calls_of tool rt self ++ handler_output rt (run_raised tool rt self).
Proof.
  rewrite handle_list_files_unfold. unfold calls_of, run_raised.
  destruct (session_request rt self) as [session|e]; cbv zeta.
  - rewrite async_for_raised.
    destruct (raised_by tool self _) as [e|].
    + rewrite except_Exception_trace, async_for_calls. reflexivity.
    + cbn [trace handler_output]. rewrite async_for_calls, app_nil_r. reflexivity.
  - rewrite except_Exception_trace. reflexivity.
Qed.

(** ** The claims *)

(** C1, as stated, fails in two ways.  The awaiting task is cancelled while
    the stream is drained: the cancellation is not an [Exception], the
    handler does not match it and the call raises.  Session creation raises
    an [Exception] and standard output cannot encode the error line: [print]
    raises inside the handler and the call raises.  Neither call returns a
    string. *)
Lemma call_raises_instead_of_returning :
  run_raised Runs.lookup_tool Runs.cancelled_runtime Runs.docs_agent
  = Some (Py.BaseException "")
  ∧ completion (handle_list_files Runs.lookup_tool Runs.cancelled_runtime Runs.docs_agent)
    = Propagates (Py.BaseException "")
  ∧ run_raised Runs.lookup_tool Scenarios.unencodable_stdout_runtime Runs.docs_agent
    = Some (Py.Exception "找不到 session")
  ∧ completion (handle_list_files Runs.lookup_tool Scenarios.unencodable_stdout_runtime
                  Runs.docs_agent)
    = Propagates (Py.Exception "'ascii' codec can't encode characters").
Proof. repeat split. Qed.

(** C1, amended. A call of [handle_list_files] returns a string (it never
    returns [None]) on exactly these paths: session creation and the stream
    raise nothing, whether texts were collected or not; or one of them raises
    an instance of [Exception] and the two output calls of the handler
    succeed.  On every other path the call raises instead of returning. *)
Theorem handle_list_files_returns_str
    (tool : string → gmap string string →
            gmap string string * Py.result (list FileRecord))
    (rt : Runtime) (self : FileManagerAgent) :
  (∃ s : string, completion (handle_list_files tool rt self) = Returns s)
  ↔ run_raised tool rt self = None
    ∨ ∃ msg, run_raised tool rt self = Some (Py.Exception msg)
             ∧ print rt ("Error in FileManagerAgent: " +:+ msg) = Py.Ok tt
             ∧ print_exc rt (Py.Exception msg) = Py.Ok tt.
Proof.
  pose proof (completion_by_raised tool rt self) as Hend.
  destruct (run_raised tool rt self) as [e|].
  - destruct Hend as (a & tr & ->). split.
    + intros [s Hs]. apply except_Exception_returns in Hs as (msg & -> & [? ?] & _).
      right. by exists msg.
    + intros [? | (msg & [= ->] & Hprint & Hexc)]; [done|].
      exists (error_prefix +:+ msg). apply except_Exception_returns.
      exists msg. by repeat split.
  - destruct Hend as (session & _ & ->). split; [by left | by eexists].
Qed.

(** C2, as stated, fails in two ways.  Session creation is interrupted from
    the keyboard: the interrupt is not an [Exception], it is not caught and
    it reaches the caller.  The stream raises an [Exception], the error line
    is printed but [traceback.print_exc] raises: no string is returned and
    an exception reaches the caller. *)
Lemma exception_reaches_caller :
  run_raised Runs.lookup_tool Scenarios.interrupted_runtime Runs.docs_agent
  = Some (Py.BaseException "KeyboardInterrupt")
  ∧ completion (handle_list_files Runs.lookup_tool Scenarios.interrupted_runtime
                  Runs.docs_agent)
    = Propagates (Py.BaseException "KeyboardInterrupt")
  ∧ run_raised Runs.lookup_tool Scenarios.closed_stderr_runtime Runs.docs_agent
    = Some (Py.Exception "quota")
  ∧ completion (handle_list_files Runs.lookup_tool Scenarios.closed_stderr_runtime
                  Runs.docs_agent)
    = Propagates (Py.Exception "I/O operation on closed file").
Proof. repeat split. Qed.

(** C2, amended. When session creation or the streaming run raises [e]:
    if [e] is an instance of [Exception], the handler at the end of the
    method catches it and calls [print] with the error message; if that
    succeeds it calls [traceback.print_exc]; if both succeed the method
    returns "查詢檔案時發生了一點問題" followed by a colon and [str(e)], and nothing
    reaches the caller.  If an output call raises, what it raised reaches
    the caller, and a failed [print] leaves the traceback unprinted.  If [e]
    is outside [Exception], it is not caught: nothing is printed and [e]
    itself reaches the caller. *)
Theorem exception_becomes_apology
    (tool : string → gmap string string →
            gmap string string * Py.result (list FileRecord))
    (rt : Runtime) (self : FileManagerAgent) (e : Py.raised) :
  run_raised tool rt self = Some e →
  match e with
  | Py.Exception msg =>
      (print rt ("Error in FileManagerAgent: " +:+ msg) = Py.Ok tt →
       print_exc rt (Py.Exception msg) = Py.Ok tt →
       ∃ s, completion (handle_list_files tool rt self) = Returns s
            ∧ s = "查詢檔案時發生了一點問題" +:+ "：" +:+ msg
            ∧ Py.contains "查詢檔案時發生了一點問題" s = true
            ∧ Py.contains msg s = true
            ∧ trace (handle_list_files tool rt self)
              = calls_of tool rt self
                ++ [Print ("Error in FileManagerAgent: " +:+ msg);
                    PrintExc (Py.Exception msg)])
      ∧ (∀ e', print rt ("Error in FileManagerAgent: " +:+ msg) = Py.Raise e' →
               completion (handle_list_files tool rt self) = Propagates e'
               ∧ trace (handle_list_files tool rt self)
                 = calls_of tool rt self
                   ++ [Print ("Error in FileManagerAgent: " +:+ msg)])
      ∧ (∀ e', print rt ("Error in FileManagerAgent: " +:+ msg) = Py.Ok tt →
               print_exc rt (Py.Exception msg) = Py.Raise e' →
               completion (handle_list_files tool rt self) = Propagates e'
               ∧ trace (handle_list_files tool rt self)
                 = calls_of tool rt self
                   ++ [Print ("Error in FileManagerAgent: " +:+ msg);
                       PrintExc (Py.Exception msg)])
  | Py.BaseException _ =>
      completion (handle_list_files tool rt self) = Propagates e
      ∧ trace (handle_list_files tool rt self) = calls_of tool rt self
  end.
Proof.
  intros Hraised. rewrite trace_of_call, Hraised.
  pose proof (completion_by_raised tool rt self) as Hend.
  rewrite Hraised in Hend. destruct Hend as (a & tr & ->).
  destruct e as [msg|msg].
  - unfold handler_output. split; [|split].
    + intros Hprint Hexc. rewrite Hprint.
      destruct (apology_shape msg) as (Hshape & Hprefix & Hmsg).
      exists (error_prefix +:+ msg). split; [|done].
      apply except_Exception_returns. exists msg. by repeat split.
    + intros e' Hprint. rewrite Hprint. split; [|done].
      apply except_Exception_propagates. right. exists msg. split; [done|]. by left.
    + intros e' Hprint Hexc. rewrite Hprint. split; [|done].
      apply except_Exception_propagates. right. exists msg. split; [done|]. by right.
  - split; [|by rewrite app_nil_r].
    apply except_Exception_propagates. by left.
Qed.

Lemma exception_becomes_apology_witness :
  ∃ s,
    completion (handle_list_files Runs.lookup_tool Runs.refusing_runtime Runs.docs_agent)
    = Returns s
    ∧ s = "查詢檔案時發生了一點問題" +:+ "：" +:+ "session exists"
    ∧ Py.contains "查詢檔案時發生了一點問題" s = true
    ∧ Py.contains "session exists" s = true
    ∧ trace (handle_list_files Runs.lookup_tool Runs.refusing_runtime Runs.docs_agent)
      = calls_of Runs.lookup_tool Runs.refusing_runtime Runs.docs_agent
        ++ [Print ("Error in FileManagerAgent: " +:+ "session exists");
            PrintExc (Py.Exception "session exists")].
Proof.
  apply (exception_becomes_apology
           Runs.lookup_tool Runs.refusing_runtime Runs.docs_agent
           (Py.Exception "session exists")); reflexivity.
Defined.

(** C3. When the session is created and the event stream completes without
    raising, the method returns exactly "目前沒有找到任何檔案唷！" if the accumulator
    of collected texts is empty; if it is not, it returns the accumulator's
    entries joined with newline separators: the first entry, then for each
    later entry a newline and that entry. *)
Theorem reply_of_completed_stream
    (tool : string → gmap string string →
            gmap string string * Py.result (list FileRecord))
    (rt : Runtime) (self : FileManagerAgent) (session : Session)
    (acc : list string) :
  session_request rt self = Py.Ok session →
  raised_by tool self (response_stream rt self session) = None →
  acc = collected (events_of tool self (response_stream rt self session)) →
  (acc = [] →
   completion (handle_list_files tool rt self) = Returns "目前沒有找到任何檔案唷！")
  ∧ (∀ t rest, acc = t :: rest →
     completion (handle_list_files tool rt self)
     = Returns (foldl (λ s u, s +:+ String "010" EmptyString +:+ u) t rest)).
Proof.
  intros Hreq Hr ->.
  destruct (stream_completes tool rt self session Hreq Hr) as (a & calls & -> & _).
  cbn [completion]. split.
  - by intros ->.
  - intros t rest ->. by rewrite join_newline_separated.
Qed.

Lemma reply_of_completed_stream_witness :
  (completion (handle_list_files Runs.lookup_tool Runs.abc_after_tool_runtime
                 Runs.docs_agent)
   = Returns "a
b
c")
  ∧ (completion (handle_list_files Runs.caching_tool Runs.silent_runtime Runs.notes_agent)
     = Returns "目前沒有找到任何檔案唷！").
Proof.
  split.
  - exact (proj2 (reply_of_completed_stream
                    Runs.lookup_tool Runs.abc_after_tool_runtime Runs.docs_agent
                    Runs.docs_session ["a"; "b"; "c"]
                    eq_refl eq_refl eq_refl)
             "a" ["b"; "c"] eq_refl).
  - exact (proj1 (reply_of_completed_stream
                    Runs.caching_tool Runs.silent_runtime Runs.notes_agent
                    Runs.notes_session []
                    eq_refl eq_refl eq_refl)
             eq_refl).
Defined.

(** C4. The order of the text fragments is kept, inside an event and from one
    event to the next, for every sequence of events the runtime yields,
    whatever other events and parts come in between: when the session is
    created and the stream completes after yielding the events [evs], the
    method returns the non-empty texts of all parts of all events, taken
    event by event and inside an event part by part, joined with newlines
    (the fallback when there is none).  An event whose parts carry the
    non-empty texts [ts] contributes exactly [ts]; so the events ["a"] and
    ["b", "c"] give "a\nb\nc". *)
Theorem fragment_order_preserved
    (tool : string → gmap string string →
            gmap string string * Py.result (list FileRecord))
    (rt : Runtime) (self : FileManagerAgent) (session : Session)
    (evs : list Event) :
  session_request rt self = Py.Ok session →
  raised_by tool self (response_stream rt self session) = None →
  events_of tool self (response_stream rt self session) = evs →
  completion (handle_list_files tool rt self)
  = Returns match concat (map (λ ev, omap fragment_of (carried_parts ev)) evs) with
            | [] => "目前沒有找到任何檔案唷！"
            | t :: rest => foldl (λ s u, s +:+ String "010" EmptyString +:+ u) t rest
            end
  ∧ ∀ ts, Forall (λ t, t ≠ EmptyString) ts →
          omap fragment_of (carried_parts (event_with_texts ts)) = ts.
Proof.
  intros Hreq Hr Hev. split.
  - destruct (stream_completes tool rt self session Hreq Hr) as (a & calls & -> & _).
    cbn [completion]. rewrite Hev, collected_fragments.
    change (map (λ ev, omap fragment_of (carried_parts ev)) evs)
      with (map text_fragments evs).
    destruct (concat (map text_fragments evs)) as [|t rest]; [done|].
    by rewrite join_newline_separated.
  - intros ts Hts.
    change (text_fragments (event_with_texts ts) = ts).
    rewrite text_fragments_event_with_texts.
    induction Hts as [|t ts Ht _ IH]; [done|].
    rewrite filter_cons. destruct (decide (t ≠ EmptyString)); [by rewrite IH | done].
Qed.

Lemma fragment_order_preserved_witness :
  completion (handle_list_files Runs.lookup_tool Runs.abc_runtime Runs.docs_agent)
  = Returns "a
b
c"
  ∧ completion (handle_list_files Runs.caching_tool Scenarios.grouped_runtime
                  Runs.notes_agent)
    = Returns "a
b
c".
Proof.
  split.
  - exact (proj1 (fragment_order_preserved
                    Runs.lookup_tool Runs.abc_runtime Runs.docs_agent Runs.docs_session
                    [event_with_texts ["a"]; event_with_texts ["b"; "c"]]
                    eq_refl eq_refl eq_refl)).
  - exact (proj1 (fragment_order_preserved
                    Runs.caching_tool Scenarios.grouped_runtime Runs.notes_agent
                    Runs.notes_session
                    [event_with_texts ["a"; "b"];
                     {| content := Some {| role := Some "model";
                                           parts := Some [Runs.tool_part] |} |};
                     event_with_texts [""; "c"]]
                    eq_refl eq_refl eq_refl)).
Defined.

(** C5. For every event of the stream, [handle_list_files] appends a part's
    text to the accumulator if and only if the event carries content with one
    or more parts, the part has a [text] attribute and that text is not
    empty: the loop leaves in the accumulator, after what it held, exactly
    these texts, event by event and part by part, and the reply of a call
    whose stream completes is built from them alone.  A part whose text is
    absent, [None] or empty adds nothing. *)
Theorem visit_event_appends_nonempty_texts
    (tool : string → gmap string string →
            gmap string string * Py.result (list FileRecord))
    (rt : Runtime) (self : FileManagerAgent) :
  (∀ stream acc tr,
     response_texts (async_for tool self stream acc tr)
     = acc ++ concat (map (λ ev, omap fragment_of (carried_parts ev))
                          (events_of tool self stream)))
  ∧ (∀ acc ev, visit_event acc ev = acc ++ omap fragment_of (carried_parts ev))
  ∧ (∀ p t, fragment_of p = Some t ↔ text p = Py.Has (Some t) ∧ t ≠ EmptyString)
  ∧ (∀ p, fragment_of p = None ↔
          text p = Py.Missing ∨ text p = Py.Has None ∨ text p = Py.Has (Some EmptyString))
  ∧ (∀ ev p, p ∈ carried_parts ev ↔
             ∃ c ps, content ev = Some c ∧ parts c = Some ps ∧ ps ≠ [] ∧ p ∈ ps)
  ∧ (∀ session,
       session_request rt self = Py.Ok session →
       raised_by tool self (response_stream rt self session) = None →
       completion (handle_list_files tool rt self)
       = Returns match concat (map (λ ev, omap fragment_of (carried_parts ev))
                                   (events_of tool self
                                      (response_stream rt self session))) with
                 | [] => no_files_reply
                 | t :: rest => foldl (λ s u, s +:+ String "010" EmptyString +:+ u) t rest
                 end).
Proof.
  split; [|split; [|split; [|split; [|split]]]].
  - intros stream acc tr. rewrite async_for_texts. apply foldl_visit_event.
  - apply visit_event_fragments.
  - apply fragment_of_spec.
  - intros p. unfold fragment_of. destruct (text p) as [|[t|]].
    + split; [by left | done].
    + destruct (decide (t = EmptyString)) as [->|Ht].
      * split; [by right; right | done].
      * split; [done | intros [?|[?|[= ?]]]; done].
    + split; [by right; left | done].
  - intros ev p. unfold carried_parts. destruct (content ev) as [c|].
    + destruct (parts c) as [ps|] eqn:Hps; simpl.
      * split.
        -- intros Hp. exists c, ps. split; [done|]. split; [done|]. split; [|done].
           intros ->. by apply elem_of_nil in Hp.
        -- intros (c' & ps' & [= <-] & Hps' & _ & Hp). congruence.
      * split; [by intros ?%elem_of_nil|].
        intros (c' & ps' & [= <-] & Hps' & _). congruence.
    + split; [by intros ?%elem_of_nil | by intros (? & ? & ? & _)].
  - intros session Hreq Hr.
    destruct (stream_completes tool rt self session Hreq Hr) as (a & calls & -> & _).
    cbn [completion]. rewrite collected_fragments.
    change (map (λ ev, omap fragment_of (carried_parts ev))) with (map text_fragments).
    destruct (concat _) as [|t rest]; [done|].
    by rewrite join_newline_separated.
Qed.

Lemma visit_event_appends_nonempty_texts_witness :
  completion (handle_list_files Runs.lookup_tool Runs.silent_runtime Runs.notes_agent)
  = Returns "nothing here"
  ∧ response_texts
      (async_for Runs.caching_tool Runs.notes_agent
         (response_stream Scenarios.grouped_runtime Runs.notes_agent Runs.notes_session)
         ["z"] [])
    = ["z"; "a"; "b"; "c"].
Proof.
  destruct (visit_event_appends_nonempty_texts
              Runs.lookup_tool Runs.silent_runtime Runs.notes_agent)
    as (_ & _ & _ & _ & _ & Hreply).
  destruct (visit_event_appends_nonempty_texts
              Runs.caching_tool Scenarios.grouped_runtime Runs.notes_agent)
    as (Hloop & _).
  split.
  - exact (Hreply Runs.notes_session eq_refl eq_refl).
  - exact (Hloop (response_stream Scenarios.grouped_runtime Runs.notes_agent
                    Runs.notes_session) ["z"] []).
Defined.




Lemma agent_of_call
    (tool : string → gmap string string →
            gmap string string * Py.result (list FileRecord))
    (rt : Runtime) (self : FileManagerAgent) :
  agent_after (handle_list_files tool rt self)
  = init (store_name self)
      (Nat.iter (calls_made tool rt self) (tool_write tool (store_name self))
         (store_name_cache self)).
Proof.
  rewrite handle_list_files_unfold. unfold calls_made.
  destruct (session_request rt self) as [session|e]; cbv zeta.
  - destruct (loop_raised _) as [e|].
    + rewrite except_Exception_agent. apply async_for_final_agent.
    + cbn [agent_after]. apply async_for_final_agent.
  - rewrite except_Exception_agent. by destruct self.
Qed.

(** C7, as stated, fails: the tool is handed the caller's dict and may write
    to it.  With a tool that fills the dict on a miss, a call on an agent
    built over an empty cache leaves an entry in the cache. *)
Lemma tool_write_reaches_cache :
  store_name_cache (init "notes" ∅) = ∅
  ∧ store_name_cache
      (agent_after (handle_list_files Scenarios.fill_on_miss_tool
                      Runs.abc_after_tool_runtime (init "notes" ∅)))
    = {[ "notes" := "stores/notes" ]}
  ∧ store_name_cache
      (agent_after (handle_list_files Scenarios.fill_on_miss_tool
                      Runs.abc_after_tool_runtime (init "notes" ∅))) !! "notes"
    ≠ (∅ : gmap string string) !! "notes".
Proof. split; [reflexivity|]. split; [by vm_compute | by vm_compute]. Qed.

(** C7, amended. The method and the tool wrapper write nothing to the cache
    dict bound by [__init__] themselves: they hand it to the tool, and after
    the call the dict is the dict before the call with the tool's writes
    applied, one per tool call of the run.  It holds exactly the entries it
    held before whenever the run makes no tool call, or the tool, called for
    this store on this dict, leaves the dict as it found it. *)
Theorem cache_unchanged_by_call
    (tool : string → gmap string string →
            gmap string string * Py.result (list FileRecord))
    (rt : Runtime) (store : string) (cache : gmap string string) :
  store_name_cache (agent_after (handle_list_files tool rt (init store cache)))
  = Nat.iter (calls_made tool rt (init store cache)) (tool_write tool store) cache
  ∧ (calls_made tool rt (init store cache) = 0 ∨ tool_write tool store cache = cache →
     store_name_cache (agent_after (handle_list_files tool rt (init store cache)))
     = cache
     ∧ ∀ key,
         store_name_cache (agent_after (handle_list_files tool rt (init store cache)))
           !! key
         = cache !! key).
Proof.
  rewrite agent_of_call. cbn [init store_name store_name_cache].
  split; [reflexivity|].
  intros Hsame.
  assert (Nat.iter (calls_made tool rt (init store cache)) (tool_write tool store) cache
          = cache) as ->; [|done].
  destruct Hsame as [-> | Hfix]; [done|].
  induction (calls_made _ _ _) as [|n IH]; [done|].
  by rewrite Nat.iter_succ, IH.
Qed.

Lemma cache_unchanged_by_call_witness :
  store_name_cache
    (agent_after (handle_list_files Scenarios.fill_on_miss_tool
                    Runs.abc_after_tool_runtime
                    (init "docs" {[ "docs" := "store_123" ]})))
  = {[ "docs" := "store_123" ]}
  ∧ ∀ key,
      store_name_cache
        (agent_after (handle_list_files Scenarios.fill_on_miss_tool
                        Runs.abc_after_tool_runtime
                        (init "docs" {[ "docs" := "store_123" ]}))) !! key
      = ({[ "docs" := "store_123" ]} : gmap string string) !! key.
Proof.
  apply (cache_unchanged_by_call Scenarios.fill_on_miss_tool
           Runs.abc_after_tool_runtime "docs" {[ "docs" := "store_123" ]}).
  right. reflexivity.
Defined.

(** C8. The user id and the session id depend on the store name only: two
    calls, on the same agent or on two agents, whose store names are equal
    both build the user id "user_" + store_name and the session id
    "list_files_" + store_name, and ask the runtime for a session under these
    same identifiers. *)
Theorem ids_derived_from_store_name
    (tool1 tool2 : string → gmap string string →
                   gmap string string * Py.result (list FileRecord))
    (rt1 rt2 : Runtime) (self1 self2 : FileManagerAgent) :
  store_name self1 = store_name self2 →
  ∃ uid sid rest1 rest2,
    uid = "user_" +:+ store_name self1
    ∧ sid = "list_files_" +:+ store_name self1
    ∧ user_id self1 = uid ∧ user_id self2 = uid
    ∧ session_id self1 = sid ∧ session_id self2 = sid
    ∧ trace (handle_list_files tool1 rt1 self1) = CreateSession APP_NAME uid sid :: rest1
    ∧ trace (handle_list_files tool2 rt2 self2) = CreateSession APP_NAME uid sid :: rest2.
Proof.
  intros Hstore.
  destruct (trace_starts_with_session_request tool1 rt1 self1) as [rest1 H1].
  destruct (trace_starts_with_session_request tool2 rt2 self2) as [rest2 H2].
  exists (user_id self1), (session_id self1), rest1, rest2.
  unfold user_id, session_id in *. rewrite <- Hstore in *. done.
Qed.

Lemma ids_derived_from_store_name_witness :
  ∃ uid sid rest1 rest2,
    uid = "user_" +:+ "docs"
    ∧ sid = "list_files_" +:+ "docs"
    ∧ user_id Runs.docs_agent = uid ∧ user_id Runs.docs_agent_empty_cache = uid
    ∧ session_id Runs.docs_agent = sid ∧ session_id Runs.docs_agent_empty_cache = sid
    ∧ trace (handle_list_files Runs.lookup_tool Runs.abc_runtime Runs.docs_agent)
      = CreateSession APP_NAME uid sid :: rest1
    ∧ trace (handle_list_files Runs.caching_tool Runs.refusing_runtime
               Runs.docs_agent_empty_cache)
      = CreateSession APP_NAME uid sid :: rest2.
Proof.
  apply (ids_derived_from_store_name
           Runs.lookup_tool Runs.caching_tool Runs.abc_runtime Runs.refusing_runtime
           Runs.docs_agent Runs.docs_agent_empty_cache).
  reflexivity.
Defined.

(** C9, as stated, fails: for the store "docs" the tool returns one file
    record, the runtime calls the tool and is handed that record, but none
    of the events it yields carries a non-empty text; the method returns the
    fallback string. *)
Lemma file_listed_but_fallback_returned :
  (Runs.lookup_tool (store_name Runs.docs_agent) (store_name_cache Runs.docs_agent)).2
  = Py.Ok [Runs.report]
  ∧ trace (handle_list_files Runs.lookup_tool Runs.silent_runtime Runs.docs_agent)
    = [CreateSession APP_NAME "user_docs" "list_files_docs";
       RunAsync "user_docs" "list_files_docs" new_message;
       ToolCall "docs"]
  ∧ completion (handle_list_files Runs.lookup_tool Runs.silent_runtime Runs.docs_agent)
    = Returns "目前沒有找到任何檔案唷！".
Proof. split; [reflexivity|]. split; reflexivity. Qed.

(** C9, amended. Whatever the tool returned, the method returns the fallback
    string exactly when the session is created, the stream completes without
    raising, and the accumulator is empty or holds the fallback text as its
    only fragment.  So it returns a non-fallback string as soon as the
    runtime yields a non-empty text fragment other than that one text, or a
    caught exception ends the call. *)
Theorem fallback_iff_nothing_collected
    (tool : string → gmap string string →
            gmap string string * Py.result (list FileRecord))
    (rt : Runtime) (self : FileManagerAgent) :
  completion (handle_list_files tool rt self) = Returns "目前沒有找到任何檔案唷！"
  ↔ ∃ session,
      session_request rt self = Py.Ok session
      ∧ raised_by tool self (response_stream rt self session) = None
      ∧ (collected (events_of tool self (response_stream rt self session)) = []
         ∨ collected (events_of tool self (response_stream rt self session))
           = ["目前沒有找到任何檔案唷！"]).
Proof.
  change "目前沒有找到任何檔案唷！" with no_files_reply.
  split.
  - destruct (session_request rt self) as [session|e] eqn:Hreq.
    + destruct (raised_by tool self (response_stream rt self session)) as [e|] eqn:Hr.
      * destruct (stream_raises tool rt self session e Hreq Hr) as (a & calls & -> & _).
        intros (msg & _ & _ & Heq)%except_Exception_returns.
        by destruct (error_reply_not_fallback msg).
      * destruct (stream_completes tool rt self session Hreq Hr) as (a & calls & -> & _).
        cbn [completion]. intros [= Heq]. exists session.
        split; [done|]. split; [done|].
        destruct (collected _) as [|x acc] eqn:Hacc; [by left|].
        right. by apply join_is_fallback.
    + rewrite (session_raises tool rt self e Hreq).
      intros (msg & _ & _ & Heq)%except_Exception_returns.
      by destruct (error_reply_not_fallback msg).
  - intros (session & Hreq & Hr & Hacc).
    destruct (stream_completes tool rt self session Hreq Hr) as (a & calls & -> & _).
    cbn [completion]. by destruct Hacc as [-> | ->].
Qed.

(** C10. When no exception occurs, the returned string depends on the events
    the runtime yields and on nothing else: two runs, with any agents, store
    names, caches, tools and sessions, that yield the same events and
    complete return the same string. *)
Theorem reply_determined_by_events
    (tool1 tool2 : string → gmap string string →
                   gmap string string * Py.result (list FileRecord))
    (rt1 rt2 : Runtime) (self1 self2 : FileManagerAgent)
    (session1 session2 : Session) :
  session_request rt1 self1 = Py.Ok session1 →
  session_request rt2 self2 = Py.Ok session2 →
  raised_by tool1 self1 (response_stream rt1 self1 session1) = None →
  raised_by tool2 self2 (response_stream rt2 self2 session2) = None →
  events_of tool1 self1 (response_stream rt1 self1 session1)
  = events_of tool2 self2 (response_stream rt2 self2 session2) →
  completion (handle_list_files tool1 rt1 self1)
  = completion (handle_list_files tool2 rt2 self2).
Proof.
  intros Hreq1 Hreq2 Hr1 Hr2 Hev.
  destruct (stream_completes tool1 rt1 self1 session1 Hreq1 Hr1) as (a1 & c1 & -> & _).
  destruct (stream_completes tool2 rt2 self2 session2 Hreq2 Hr2) as (a2 & c2 & -> & _).
  cbn [completion]. by rewrite Hev.
Qed.

Lemma reply_determined_by_events_witness :
  completion (handle_list_files Runs.lookup_tool Runs.abc_runtime Runs.docs_agent)
  = completion (handle_list_files Runs.caching_tool Runs.abc_after_tool_runtime
                  Runs.notes_agent).
Proof.
  apply (reply_determined_by_events
           Runs.lookup_tool Runs.caching_tool
           Runs.abc_runtime Runs.abc_after_tool_runtime
           Runs.docs_agent Runs.notes_agent
           Runs.docs_session Runs.notes_session); reflexivity.
Defined.



(** * Further properties of a call *)

(** X1. Whenever the method returns, the string it returns is not empty: the
    apology and the fallback are not, and the accumulator only ever holds
    non-empty texts. *)
Theorem reply_never_empty
    (tool : string → gmap string string →
            gmap string string * Py.result (list FileRecord))
    (rt : Runtime) (self : FileManagerAgent) (s : string) :
  completion (handle_list_files tool rt self) = Returns s → s ≠ EmptyString.
Proof.
  pose proof (completion_by_raised tool rt self) as Hend.
  destruct (run_raised tool rt self) as [e|].
  - destruct Hend as (a & tr & ->).
    intros (msg & _ & _ & ->)%except_Exception_returns. discriminate.
  - destruct Hend as (session & _ & ->). intros [= <-].
    pose proof (collected_nonempty
                  (events_of tool self (response_stream rt self session))) as Hall.
    destruct (collected _) as [|x acc]; [discriminate|].
    by apply (join_nonempty Py.newline (x :: acc)).
Qed.

Lemma reply_never_empty_witness :
  completion (handle_list_files Runs.lookup_tool Runs.silent_runtime Runs.docs_agent)
  = Returns no_files_reply
  ∧ no_files_reply ≠ EmptyString.
Proof.
  split; [reflexivity|].
  apply (reply_never_empty Runs.lookup_tool Runs.silent_runtime Runs.docs_agent).
  reflexivity.
Defined.

(** X2. A call raises [e] to its caller in exactly two cases: session creation
    or the stream raised [e] and [e] is outside [Exception], so that the
    handler does not match it; or an [Exception] was caught and [e] is what
    an output call of the handler raised, [print] or, once [print] had
    succeeded, [traceback.print_exc]. *)
Theorem propagates_iff_outside_Exception
    (tool : string → gmap string string →
            gmap string string * Py.result (list FileRecord))
    (rt : Runtime) (self : FileManagerAgent) (e : Py.raised) :
  completion (handle_list_files tool rt self) = Propagates e
  ↔ (run_raised tool rt self = Some e ∧ Py.is_Exception e = false)
    ∨ ∃ msg,
        run_raised tool rt self = Some (Py.Exception msg)
        ∧ (print rt ("Error in FileManagerAgent: " +:+ msg) = Py.Raise e
           ∨ (print rt ("Error in FileManagerAgent: " +:+ msg) = Py.Ok tt
              ∧ print_exc rt (Py.Exception msg) = Py.Raise e)).
Proof.
  pose proof (completion_by_raised tool rt self) as Hend.
  destruct (run_raised tool rt self) as [e0|].
  - destruct Hend as (a & tr & ->). rewrite except_Exception_propagates. split.
    + intros [[-> ?] | (msg & -> & Hout)]; [by left | right; by exists msg].
    + intros [[[= ->] ?] | (msg & [= ->] & Hout)]; [by left | right; by exists msg].
  - destruct Hend as (session & _ & ->). split; [done|].
    intros [[? _] | (? & ? & _)]; done.
Qed.

(** X3. The calls a call of the method makes, in order: one [create_session]
    under the ids derived from the store name; if it succeeds, one
    [run_async] for the same user id, the id of the session the runtime
    returned and the fixed prompt, then the tool calls the stream asks for,
    each for the agent's own store; last, only when an [Exception] was
    caught, [print] with the error line and, unless that raised,
    [traceback.print_exc].  Nothing else is called: no second attempt, and
    no output call when the stream completes or the exception is outside
    [Exception]. *)
Theorem effects_of_call
    (tool : string → gmap string string →
            gmap string string * Py.result (list FileRecord))
    (rt : Runtime) (self : FileManagerAgent) :
  trace (handle_list_files tool rt self)
  = CreateSession APP_NAME (user_id self) (session_id self)
    :: match session_request rt self with
       | Py.Raise _ => []
       | Py.Ok session =>
           RunAsync (user_id self) (id session) new_message
           :: replicate (calls_made tool rt self) (ToolCall (store_name self))
       end
    ++ match run_raised tool rt self with
       | Some (Py.Exception msg) =>
           Print ("Error in FileManagerAgent: " +:+ msg)
           :: match print rt ("Error in FileManagerAgent: " +:+ msg) with
              | Py.Ok _ => [PrintExc (Py.Exception msg)]
              | Py.Raise _ => []
              end
       | _ => []
       end.
Proof.
  rewrite handle_list_files_unfold. unfold calls_made, run_raised.
  destruct (session_request rt self) as [session|e]; cbv zeta.
  - rewrite async_for_raised.
    destruct (raised_by tool self _) as [e|].
    + rewrite except_Exception_trace, async_for_calls. reflexivity.
    + cbn [trace]. rewrite async_for_calls, app_nil_r. reflexivity.
  - rewrite except_Exception_trace. reflexivity.
Qed.

(** X4. The dict after a call, with any tool: it is the dict before the call
    after as many writes of the tool as the stream had tool calls, each call
    being handed the dict as the previous one left it.  The method adds no
    write of its own and undoes none when the call ends in an error; the
    store name is never changed, and nothing is written when session
    creation fails. *)
Theorem cache_after_call
    (tool : string → gmap string string →
            gmap string string * Py.result (list FileRecord))
    (rt : Runtime) (self : FileManagerAgent) :
  agent_after (handle_list_files tool rt self)
  = init (store_name self)
      (Nat.iter (calls_made tool rt self) (tool_write tool (store_name self))
         (store_name_cache self)).
Proof.
  rewrite handle_list_files_unfold. unfold calls_made.
  destruct (session_request rt self) as [session|e]; cbv zeta.
  - destruct (loop_raised _) as [e|].
    + rewrite except_Exception_agent. apply async_for_final_agent.
    + cbn [agent_after]. apply async_for_final_agent.
  - rewrite except_Exception_agent. by destruct self.
Qed.

(** Two tool calls, then an exception: both writes stay in the dict, and the
    effects are the two runtime calls, the two tool calls and the error
    output. *)
Example two_tool_calls_then_error :
  let o := handle_list_files Scenarios.counting_tool Scenarios.two_calls_runtime
             Runs.docs_agent in
  completion o = Returns (error_prefix +:+ "quota")
  ∧ store_name_cache (agent_after o) = {[ "docs" := "store_123xx" ]}
  ∧ trace o = [CreateSession APP_NAME "user_docs" "list_files_docs";
               RunAsync "user_docs" "list_files_docs" new_message;
               ToolCall "docs"; ToolCall "docs";
               Print "Error in FileManagerAgent: quota";
               PrintExc (Py.Exception "quota")].
Proof. vm_compute. done. Qed.

(** X5. On the path without exception the reply depends only on the sequence
    of non-empty text fragments: how the fragments are grouped into events
    and parts, and which events or parts without text come in between, makes
    no difference. *)
Theorem reply_depends_on_fragments_only
    (tool1 tool2 : string → gmap string string →
                   gmap string string * Py.result (list FileRecord))
    (rt1 rt2 : Runtime) (self1 self2 : FileManagerAgent) :
  run_raised tool1 rt1 self1 = None →
  run_raised tool2 rt2 self2 = None →
  (∀ session1 session2,
     session_request rt1 self1 = Py.Ok session1 →
     session_request rt2 self2 = Py.Ok session2 →
     all_fragments (events_of tool1 self1 (response_stream rt1 self1 session1))
     = all_fragments (events_of tool2 self2 (response_stream rt2 self2 session2))) →
  completion (handle_list_files tool1 rt1 self1)
  = completion (handle_list_files tool2 rt2 self2).
Proof.
  unfold run_raised. intros Hr1 Hr2 Hfr.
  destruct (session_request rt1 self1) as [session1|] eqn:Hreq1; [|done].
  destruct (session_request rt2 self2) as [session2|] eqn:Hreq2; [|done].
  specialize (Hfr session1 session2 eq_refl eq_refl).
  destruct (stream_completes tool1 rt1 self1 session1 Hreq1 Hr1) as (a1 & c1 & -> & _).
  destruct (stream_completes tool2 rt2 self2 session2 Hreq2 Hr2) as (a2 & c2 & -> & _).
  cbn [completion]. unfold all_fragments in Hfr.
  by rewrite !collected_fragments, Hfr.
Qed.

Lemma reply_depends_on_fragments_only_witness :
  completion (handle_list_files Runs.lookup_tool Runs.abc_runtime Runs.docs_agent)
  = completion (handle_list_files Runs.caching_tool Scenarios.grouped_runtime
                  Runs.notes_agent).
Proof.
  apply (reply_depends_on_fragments_only
           Runs.lookup_tool Runs.caching_tool
           Runs.abc_runtime Scenarios.grouped_runtime
           Runs.docs_agent Runs.notes_agent).
  - reflexivity.
  - reflexivity.
  - intros session1 session2 _ _. reflexivity.
Defined.

(** X6. The returned string does not tell a failure from a success: for every
    error text there is a run in which nothing is raised and which returns
    exactly the string the method returns after an exception with that
    text. *)
Theorem success_can_return_any_error_reply
    (tool : string → gmap string string →
            gmap string string * Py.result (list FileRecord))
    (self : FileManagerAgent) (msg : string) :
  ∃ rt_ok rt_failed,
    run_raised tool rt_ok self = None
    ∧ run_raised tool rt_failed self = Some (Py.Exception msg)
    ∧ completion (handle_list_files tool rt_ok self)
      = completion (handle_list_files tool rt_failed self)
    ∧ completion (handle_list_files tool rt_ok self)
      = Returns ("查詢檔案時發生了一點問題：" +:+ msg).
Proof.
  exists (Scenarios.echo_runtime (error_prefix +:+ msg)).
  exists {| create_session := λ _ _ _, Py.Raise (Py.Exception msg);
            run_async := λ _ _ _, Stop;
            print := Runs.written;
            print_exc := Runs.written |}.
  split; [reflexivity|]. split; [reflexivity|]. split; reflexivity.
Qed.

(** X7. Agents for different stores never share a user id or a session id:
    each id determines the store name it was built from. *)
Theorem ids_determine_store_name (self1 self2 : FileManagerAgent) :
  (user_id self1 = user_id self2 ↔ store_name self1 = store_name self2)
  ∧ (session_id self1 = session_id self2 ↔ store_name self1 = store_name self2).
Proof.
  unfold user_id, session_id. split; split.
  - intros H. cbv [String.append] in H. by simplify_eq.
  - by intros ->.
  - intros H. cbv [String.append] in H. by simplify_eq.
  - by intros ->.
Qed.

(** X8. No collected text is lost: when the session is created and the stream
    completes, every text fragment of every event yielded occurs in the
    returned string. *)
Theorem reply_contains_every_fragment
    (tool : string → gmap string string →
            gmap string string * Py.result (list FileRecord))
    (rt : Runtime) (self : FileManagerAgent) (session : Session)
    (ev : Event) (t s : string) :
  session_request rt self = Py.Ok session →
  raised_by tool self (response_stream rt self session) = None →
  ev ∈ events_of tool self (response_stream rt self session) →
  t ∈ text_fragments ev →
  completion (handle_list_files tool rt self) = Returns s →
  Py.contains t s = true.
Proof.
  intros Hreq Hr Hev Ht.
  destruct (stream_completes tool rt self session Hreq Hr) as (a & calls & -> & _).
  cbn [completion]. intros [= <-].
  assert (t ∈ collected (events_of tool self (response_stream rt self session))) as Hin.
  { rewrite collected_fragments. apply list_elem_of_In, in_concat.
    exists (text_fragments ev). split; [|by apply list_elem_of_In].
    apply in_map. by apply list_elem_of_In. }
  destruct (collected _) as [|x acc]; [by apply elem_of_nil in Hin|].
  exact (contains_join Py.newline t (x :: acc) Hin).
Qed.

Lemma reply_contains_every_fragment_witness :
  Py.contains "c" "a
b
c" = true.
Proof.
  apply (reply_contains_every_fragment
           Runs.caching_tool Scenarios.grouped_runtime Runs.notes_agent
           Runs.notes_session (event_with_texts [""; "c"]) "c").
  - reflexivity.
  - reflexivity.
  - vm_compute. do 2 apply list_elem_of_further. apply list_elem_of_here.
  - vm_compute. apply list_elem_of_here.
  - reflexivity.
Defined.
